(** * Plant Growth Visualization Service: the chart endpoint of [main.py]

    A shallow embedding of [get_db_engine] and [get_growth_chart] together
    with the collaborators they call: the process environment, the SQLAlchemy
    engine and connection, the [growth_logs] table behind the SELECT
    statement, the pandas data frame and the plotly figure.  Python exceptions
    are values of [exn]; every call runs in a state-and-exception monad whose
    state counts the open connections and records the calls that reached the
    database driver. *)

From Stdlib Require Import ZArith Ascii String.
From Corelib Require Import PrimFloat SpecFloat FloatOps FloatAxioms.
From stdpp Require Import base strings list gmap sorting pretty.

Local Open Scope string_scope.
Local Open Scope Z_scope.

(** ** Calendar values *)

(** A database DATE, read by the driver as a [datetime.date]. *)
Record date := Date { year : Z; month : Z; day : Z }.

(** A pandas [Timestamp]: a calendar day and the nanoseconds since midnight. *)
Record timestamp := Timestamp { ts_date : date; ts_nanos : Z }.

Definition date_leb (a b : date) : bool :=
  match year a ?= year b with
  | Lt => true
  | Gt => false
  | Eq =>
      match month a ?= month b with
      | Lt => true
      | Gt => false
      | Eq => day a <=? day b
      end
  end.

(** ** Python exceptions *)

(** The classes the handlers of [main.py] tell apart.  [SQLAlchemyError]
    stands for the class and all its subclasses; [PyException] is any other
    subclass of [Exception], named by its class. *)
Inductive exn :=
| SQLAlchemyError (msg : string)
| HTTPException (status_code : Z) (detail : string)
| PyException (cls : string) (msg : string).

Definition is_SQLAlchemyError (e : exn) : bool :=
  match e with SQLAlchemyError _ => true | _ => false end.

(** ** Values held by the database and by a data frame *)

Inductive sqlval := SInt (z : Z) | SDate (d : date).

(** A pandas Series with its dtype: int64, object holding dates, float64,
    datetime64. *)
Inductive Series :=
| IntSeries (zs : list Z)
| DateSeries (ds : list date)
| FloatSeries (fs : list float)
| TimestampSeries (ts : list timestamp).

(** One row of the table [growth_logs]. *)
Record growth_log := GrowthLog { lot_id : Z; log_date : date; height_mm : Z }.

(** ** The world outside the process *)

(** What the collaborators do when called: the environment variables, whether
    [create_engine] rejects a URL, whether opening a connection or running a
    statement fails, the rows of [growth_logs] in insertion order, the text
    [str] gives for an [HTTPException] (the web framework's choice), and
    whether pandas re-raises a failed statement under its own class (pandas
    2.2 and later do). *)
Record world := World {
  environ : gmap string string;
  create_engine_error : string → option exn;
  connect_error : option exn;
  execute_error : option exn;
  growth_logs : list growth_log;
  http_exception_str : Z → string → string;
  pandas_wraps : bool
}.

(** [str(e)] *)
Definition str (w : world) (e : exn) : string :=
  match e with
  | SQLAlchemyError msg => msg
  | HTTPException sc d => http_exception_str w sc d
  | PyException _ msg => msg
  end.

(** ** State, outcomes and the monad *)

Inductive event :=
| CreateEngine (url : string)
| Connect
| Execute (sql : string) (params : gmap string Z)
| Close.

Record state := State { open_conns : nat; events : list event }.

Inductive outcome (A : Type) :=
| Return (a : A)
| Raise (e : exn).
Arguments Return {A} a.
Arguments Raise {A} e.

Definition M (A : Type) : Type := state → outcome A * state.

Definition ret {A} (a : A) : M A := λ s, (Return a, s).
Definition raise {A} (e : exn) : M A := λ s, (Raise e, s).
Definition bind {A B} (m : M A) (k : A → M B) : M B :=
  λ s, match m s with
       | (Return a, s') => k a s'
       | (Raise e, s') => (Raise e, s')
       end.
Definition emit (ev : event) : M unit :=
  λ s, (Return tt, State (open_conns s) (events s ++ [ev])).

Declare Scope py_scope.
Delimit Scope py_scope with py.
Notation "x <- m ;; k" := (bind m (λ x, k))
  (at level 100, m at next level, right associativity) : py_scope.
Notation "m ;;; k" := (bind m (λ _, k))
  (at level 100, right associativity) : py_scope.
Local Open Scope py_scope.

(** [try: body except Exception as e: handler(e)]; every [exn] is an
    [Exception]. *)
Definition try_except {A} (body : M A) (handler : exn → M A) : M A :=
  λ s, match body s with
       | (Return a, s') => (Return a, s')
       | (Raise e, s') => handler e s'
       end.

(** ** Environment and engine *)

(** [os.getenv(name)] inside an f-string: an unset variable prints as None. *)
Definition getenv (w : world) (name : string) : string :=
  default "None" (environ w !! name).

Record engine := Engine { engine_url : string }.
Record connection := Connection { conn_engine : engine }.

Definition create_engine (w : world) (url : string) : M engine :=
  emit (CreateEngine url) ;;;
  match create_engine_error w url with
  | Some e => raise e
  | None => ret (Engine url)
  end.

(** [engine.connect()]: on success one more connection is open. *)
Definition connect (w : world) (e : engine) : M connection :=
  emit Connect ;;;
  match connect_error w with
  | Some err => raise err
  | None => λ s, (Return (Connection e), State (S (open_conns s)) (events s))
  end.

(** [Connection.__exit__]: the connection goes back. *)
Definition close (c : connection) : M unit :=
  λ s, (Return tt, State (pred (open_conns s)) (events s ++ [Close])).

(** [with engine.connect() as connection: body]: [close] runs whether the
    body returns or raises, then the body's outcome goes on. *)
Definition with_connect {A} (w : world) (e : engine) (body : connection → M A) : M A :=
  c <- connect w e ;;
  λ s, let '(r, s') := body c s in
       let '(_, s'') := close c s' in
       (r, s'').

(** ** The database behind the connection *)

(** The shape of statement the driver is handed:
    SELECT columns FROM table WHERE column = :name ORDER BY column. *)
Record select_stmt := Select {
  sel_columns : list string;
  sel_table : string;
  sel_where_column : string;
  sel_where_param : string;
  sel_order_by : string
}.

Definition is_space (a : ascii) : bool :=
  bool_decide (a = " "%char) || bool_decide (a = "010"%char)
  || bool_decide (a = "009"%char) || bool_decide (a = "013"%char).

Definition flush (cur : string) (rest : list string) : list string :=
  if bool_decide (cur = "") then rest else cur :: rest.

(** Words of a statement; white space separates, a comma is a word. *)
Fixpoint tokenize (s : string) (cur : string) : list string :=
  match s with
  | EmptyString => flush cur []
  | String a s' =>
      if is_space a then flush cur (tokenize s' "")
      else if bool_decide (a = ","%char) then flush cur ("," :: tokenize s' "")
      else tokenize s' (cur +:+ String a "")
  end.

(** The comma-separated names before FROM, and the words after it. *)
Fixpoint parse_columns (ts : list string) : option (list string * list string) :=
  match ts with
  | c :: "FROM" :: rest => Some ([c], rest)
  | c :: "," :: rest =>
      match parse_columns rest with
      | Some (cs, rest') => Some (c :: cs, rest')
      | None => None
      end
  | _ => None
  end.

Definition parse_param (t : string) : option string :=
  match t with
  | String ":" name => if bool_decide (name = "") then None else Some name
  | _ => None
  end.

Definition parse_select (ts : list string) : option select_stmt :=
  match ts with
  | "SELECT" :: rest =>
      match parse_columns rest with
      | Some (cols, tbl :: "WHERE" :: c :: "=" :: p :: "ORDER" :: "BY" :: o :: tl) =>
          if bool_decide (tl = []) || bool_decide (tl = ["ASC"])
          then (λ name, Select cols tbl c name o) <$> parse_param p
          else None
      | _ => None
      end
  | _ => None
  end.

(** The value a row has in a named column of [growth_logs]. *)
Definition column (c : string) (r : growth_log) : option sqlval :=
  if bool_decide (c = "lot_id") then Some (SInt (lot_id r))
  else if bool_decide (c = "log_date") then Some (SDate (log_date r))
  else if bool_decide (c = "height_mm") then Some (SInt (height_mm r))
  else None.

(** The order ORDER BY sorts in: integers before dates, each ascending. *)
Definition sqlval_leb (a b : sqlval) : bool :=
  match a, b with
  | SInt x, SInt y => x <=? y
  | SInt _, SDate _ => true
  | SDate _, SInt _ => false
  | SDate x, SDate y => date_leb x y
  end.

Definition key_leb (a b : option sqlval) : bool :=
  match a, b with
  | None, _ => true
  | Some _, None => false
  | Some x, Some y => sqlval_leb x y
  end.

Definition order_by (c : string) : relation growth_log :=
  λ r1 r2, Is_true (key_leb (column c r1) (column c r2)).

Global Instance order_by_dec c : RelDecision (order_by c).
Proof. intros r1 r2. unfold order_by. apply _. Defined.

(** The rows WHERE keeps: those whose column equals the bound integer. *)
Definition matches (c : string) (v : Z) (r : growth_log) : bool :=
  match column c r with
  | Some (SInt z) => bool_decide (z = v)
  | _ => false
  end.

(** A pandas DataFrame: the length of its index and its named columns. *)
Record DataFrame := Frame { df_len : nat; df_columns : gmap string Series }.

Definition known_column (c : string) : bool :=
  bool_decide (c = "lot_id") || bool_decide (c = "log_date")
  || bool_decide (c = "height_mm").

(** The rows a statement selects, in the order it returns them: WHERE
    filters, ORDER BY sorts ascending.  Rows with equal keys come in the
    order the sort leaves them; nothing below depends on it. *)
Definition select_rows (tbl : list growth_log) (q : select_stmt) (v : Z) : list growth_log :=
  merge_sort (order_by (sel_order_by q))
    (filter (λ r, Is_true (matches (sel_where_column q) v r)) tbl).

(** A selected column as the driver and pandas hand it over. *)
Definition project (rows : list growth_log) (c : string) : option Series :=
  if bool_decide (c = "lot_id") then Some (IntSeries (lot_id <$> rows))
  else if bool_decide (c = "log_date") then Some (DateSeries (log_date <$> rows))
  else if bool_decide (c = "height_mm") then Some (IntSeries (height_mm <$> rows))
  else None.

(** Running a parsed statement with its bound parameters: the database
    rejects an unknown table or column and a missing parameter. *)
Definition run_select (tbl : list growth_log) (q : select_stmt)
    (params : gmap string Z) : outcome DataFrame :=
  if negb (bool_decide (sel_table q = "growth_logs"))
  then Raise (SQLAlchemyError "relation does not exist")
  else if negb (known_column (sel_where_column q) && known_column (sel_order_by q))
  then Raise (SQLAlchemyError "column does not exist")
  else match params !! sel_where_param q with
       | None => Raise (SQLAlchemyError "a value is required for bind parameter")
       | Some v =>
           let rows := select_rows tbl q v in
           match mapM (λ c, pair c <$> project rows c) (sel_columns q) with
           | None => Raise (SQLAlchemyError "column does not exist")
           | Some cols => Return (Frame (length rows) (list_to_map cols))
           end
       end.

(** [text(sql)] *)
Record TextClause := text { clause_sql : string }.

(** ** pandas *)

Definition lift {A} (o : outcome A) : M A := λ s, (o, s).

(** [df.empty]: some axis has length zero. *)
Definition df_empty (df : DataFrame) : bool :=
  bool_decide (df_len df = 0%nat) || bool_decide (df_columns df = ∅).

(** [df[name]] *)
Definition getitem (df : DataFrame) (name : string) : outcome Series :=
  match df_columns df !! name with
  | Some s => Return s
  | None => Raise (PyException "KeyError" name)
  end.

(** [df[name] = series] *)
Definition setitem (df : DataFrame) (name : string) (s : Series) : DataFrame :=
  Frame (df_len df) (<[name := s]> (df_columns df)).

(** An integer as a float64, rounded to the nearest, ties to even: what the
    cast of an int64 column to float64 gives. *)
Definition float_of_Z (z : Z) : float :=
  SF2Prim (binary_normalize prec emax z 0 false).

(** [series / n] with [n] a Python int: true division in float64; dates and
    timestamps do not divide. *)
Definition truediv (s : Series) (n : Z) : outcome Series :=
  match s with
  | IntSeries zs => Return (FloatSeries ((λ z, PrimFloat.div (float_of_Z z) (float_of_Z n)) <$> zs))
  | FloatSeries fs => Return (FloatSeries ((λ f, PrimFloat.div f (float_of_Z n)) <$> fs))
  | DateSeries _ | TimestampSeries _ =>
      Raise (PyException "TypeError" "unsupported operand type(s) for /")
  end.

(** The two functions of the pandas module the service calls. *)
Module pd.

(** [pandas.errors.DatabaseError] as [execute] words it. *)
Definition DatabaseError (sql msg : string) : exn :=
  PyException "DatabaseError" ("Execution failed on sql '" +:+ sql +:+ "': " +:+ msg).

(** What leaves [execute] when the statement raised [e]: pandas 2.2 and
    later catch a [SQLAlchemyError] and raise a [DatabaseError] from it,
    earlier versions and every other class let the exception through. *)
Definition reraise (w : world) (sql : string) (e : exn) : exn :=
  match e with
  | SQLAlchemyError msg => if pandas_wraps w then DatabaseError sql msg else e
  | _ => e
  end.

(** [pd.read_sql_query(query, connection, params=...)]: the statement and its
    parameters go to the driver as they are; the driver may fail, the
    database may reject the statement, otherwise the rows come back as a
    frame. *)
Definition read_sql_query (w : world) (query : TextClause) (c : connection)
    (params : gmap string Z) : M DataFrame :=
  emit (Execute (clause_sql query) params) ;;;
  match execute_error w with
  | Some e => raise (reraise w (clause_sql query) e)
  | None =>
      match parse_select (tokenize (clause_sql query) "") with
      | None => raise (reraise w (clause_sql query) (SQLAlchemyError "syntax error"))
      | Some q =>
          match run_select (growth_logs w) q params with
          | Return df => ret df
          | Raise e => raise (reraise w (clause_sql query) e)
          end
      end
  end.

(** [pd.to_datetime(series)]: a date becomes the timestamp of its midnight,
    an integer counts nanoseconds from the epoch.  Floats count nanoseconds
    too; their rounding is not modelled and the case raises. *)
Definition to_datetime (s : Series) : outcome Series :=
  match s with
  | DateSeries ds => Return (TimestampSeries ((λ d, Timestamp d 0) <$> ds))
  | TimestampSeries ts => Return (TimestampSeries ts)
  | IntSeries zs => Return (TimestampSeries (Timestamp (Date 1970 1 1) <$> zs))
  | FloatSeries _ => Raise (PyException "TypeError" "float epoch not modelled")
  end.

End pd.

(** ** plotly *)

Record Button := {
  count : option Z;
  label : option string;
  step : option string;
  stepmode : option string
}.

Record XAxis := {
  xaxis_title : option string;
  rangeselector_buttons : list Button;
  rangeslider_visible : option bool;
  xaxis_type : option string
}.

Record Layout := {
  title_text : string;
  xaxis : XAxis;
  yaxis_title : string;
  hovermode : option string
}.

Record Trace := {
  trace_type : string;
  mode : string;
  trace_x : Series;
  trace_y : Series;
  line_color : option string;
  hovertemplate : string
}.

Record Figure := { data : list Trace; layout : Layout }.

Module px.

(** [px.line(df, x=, y=, title=, labels=, markers=, color_discrete_sequence=)]:
    one scatter trace drawn as a line, with markers when asked; the axes are
    titled by [labels], falling back on the column names. *)
Definition line (df : DataFrame) (x y title : string)
    (labels : gmap string string) (markers : bool)
    (color_discrete_sequence : list string) : outcome Figure :=
  match df_columns df !! x, df_columns df !! y with
  | Some sx, Some sy =>
      let lx := default x (labels !! x) in
      let ly := default y (labels !! y) in
      Return {|
        data := [ {| trace_type := "scatter";
                     mode := if markers then "lines+markers" else "lines";
                     trace_x := sx;
                     trace_y := sy;
                     line_color := head color_discrete_sequence;
                     hovertemplate :=
                       lx +:+ "=%{x}<br>" +:+ ly +:+ "=%{y}<extra></extra>" |} ];
        layout := {| title_text := title;
                     xaxis := {| xaxis_title := Some lx;
                                 rangeselector_buttons := [];
                                 rangeslider_visible := None;
                                 xaxis_type := None |};
                     yaxis_title := ly;
                     hovermode := None |}
      |}
  | _, _ => Raise (PyException "ValueError" "not the name of a column in data_frame")
  end.

End px.

(** [fig.update_layout(xaxis=dict(rangeselector=dict(buttons=...),
    rangeslider=dict(visible=...), type=...), hovermode=...)]: the named
    properties are set, the others stay. *)
Definition update_layout (fig : Figure) (buttons : list Button)
    (slider : bool) (type hover : string) : Figure :=
  {| data := data fig;
     layout := {| title_text := title_text (layout fig);
                  xaxis := {| xaxis_title := xaxis_title (xaxis (layout fig));
                              rangeselector_buttons := buttons;
                              rangeslider_visible := Some slider;
                              xaxis_type := Some type |};
                  yaxis_title := yaxis_title (layout fig);
                  hovermode := Some hover |} |}.

(** [fig.update_traces(hovertemplate=...)]: set on every trace. *)
Definition update_traces (fig : Figure) (template : string) : Figure :=
  {| data := (λ t, {| trace_type := trace_type t;
                      mode := mode t;
                      trace_x := trace_x t;
                      trace_y := trace_y t;
                      line_color := line_color t;
                      hovertemplate := template |}) <$> data fig;
     layout := layout fig |}.

(** [fig.to_html(full_html=, include_plotlyjs=)]: the figure with the two
    options it is serialised under. *)
Record Html := to_html { html_fig : Figure; full_html : bool; include_plotlyjs : string }.

(** What the handler returns: an [HTMLResponse] of its own, or the string of
    [to_html], which the route sends as an HTML response with status 200. *)
Inductive response :=
| HTMLResponse (content : string) (status_code : Z)
| HtmlString (html : Html).

(** ** The service *)

(** The f-string of [get_db_engine]. *)
Definition db_url (w : world) : string :=
  "postgresql://" +:+ getenv w "DB_USER" +:+ ":" +:+ getenv w "DB_PASSWORD"
  +:+ "@" +:+ getenv w "DB_HOST" +:+ ":" +:+ getenv w "DB_PORT"
  +:+ "/" +:+ getenv w "DB_NAME".

(** [get_db_engine()] *)
Definition get_db_engine (w : world) : M engine :=
  try_except
    (engine <- create_engine w (db_url w) ;;
     ret engine)
    (λ e, raise (HTTPException 500 ("Database connection failed: " +:+ str w e))).

(** The statement of [get_growth_chart], as written. *)
Definition query_sql : string :=
"
            SELECT log_date, height_mm 
            FROM growth_logs 
            WHERE lot_id = :lot_id
            ORDER BY log_date
        ".

Definition no_data_html : string := "<h2>No data found for this lot ID</h2>".

Definition hover_template : string :=
  "<b>Date:</b> %{x|%Y-%m-%d}<br>" +:+
  "<b>Height:</b> %{y:.1f} cm<br>" +:+
  "<extra></extra>".

Definition range_buttons : list Button :=
  [ {| count := Some 7; label := Some "1w"; step := Some "day"; stepmode := Some "backward" |};
    {| count := Some 1; label := Some "1m"; step := Some "month"; stepmode := Some "backward" |};
    {| count := None; label := None; step := Some "all"; stepmode := None |} ].

(** The body of the [try] in [get_growth_chart]. *)
Definition growth_chart_body (w : world) (lot_id : Z) : M response :=
  engine <- get_db_engine w ;;
  let query := text query_sql in
  df <- with_connect w engine (λ connection,
          pd.read_sql_query w query connection {[ "lot_id" := lot_id ]}) ;;
  if df_empty df then ret (HTMLResponse no_data_html 404)
  else
    height_mm <- lift (getitem df "height_mm") ;;
    height_cm <- lift (truediv height_mm 10) ;;
    let df := setitem df "height_cm" height_cm in
    log_date <- lift (getitem df "log_date") ;;
    log_date <- lift (pd.to_datetime log_date) ;;
    let df := setitem df "log_date" log_date in
    fig <- lift (px.line df "log_date" "height_cm"
                   ("Tomato Growth - Lot " +:+ pretty lot_id)
                   {[ "height_cm" := "Height (cm)"; "log_date" := "Date" ]}
                   true ["green"]) ;;
    let fig := update_layout fig range_buttons true "date" "x unified" in
    let fig := update_traces fig hover_template in
    ret (HtmlString (to_html fig false "cdn")).

(** [get_growth_chart(lot_id)]: the first handler takes a [SQLAlchemyError],
    the second every other exception. *)
Definition get_growth_chart (w : world) (lot_id : Z) : M response :=
  try_except (growth_chart_body w lot_id)
    (λ e, if is_SQLAlchemyError e
          then raise (HTTPException 500 ("Database error: " +:+ str w e))
          else raise (HTTPException 500 (str w e))).

(** A fresh process: nothing open, nothing called. *)
Definition initial : state := State 0 [].

(** A database that answers: no call fails, [str] of an [HTTPException] is
    its status and detail. *)
Definition healthy (tbl : list growth_log) : world :=
  World ∅ (λ _, None) None None tbl (λ sc d, pretty sc +:+ ": " +:+ d) true.

(** ** What a run is compared with *)

(** No call to the database layer fails. *)
Definition answers (w : world) : Prop :=
  create_engine_error w (db_url w) = None
  ∧ connect_error w = None
  ∧ execute_error w = None.

(** The rows stored for a lot, in insertion order. *)
Definition stored (w : world) (lot : Z) : list growth_log :=
  filter (λ r, lot_id r = lot) (growth_logs w).

Definition date_le (a b : date) : Prop := Is_true (date_leb a b).

(** The rows of a lot as the statement returns them. *)
Definition series_rows (w : world) (lot : Z) : list growth_log :=
  merge_sort (order_by "log_date") (stored w lot).

Definition midnight (d : date) : timestamp := Timestamp d 0.

(** height_mm / 10 in float64. *)
Definition height_cm (r : growth_log) : float :=
  PrimFloat.div (float_of_Z (height_mm r)) 10%float.

(** [needle] occurs in [hay]. *)
Fixpoint occurs (needle hay : string) : bool :=
  String.prefix needle hay
  || match hay with
     | EmptyString => false
     | String _ rest => occurs needle rest
     end.

(** The calls a run from a fresh process makes. *)
Definition trace (w : world) (lot : Z) : list event :=
  events (snd (get_growth_chart w lot initial)).

Definition submitted (evs : list event) : list (string * gmap string Z) :=
  omap (λ ev, match ev with Execute sql p => Some (sql, p) | _ => None end) evs.

Definition is_Close (ev : event) : bool :=
  match ev with Close => true | _ => false end.

Definition closes (evs : list event) : nat :=
  length (filter (λ ev, Is_true (is_Close ev)) evs).

(** The figure a run builds from the rows of a lot. *)
Definition figure_of (lot : Z) (rows : list growth_log) : Figure :=
  {| data := [ {| trace_type := "scatter";
                  mode := "lines+markers";
                  trace_x := TimestampSeries (midnight ∘ log_date <$> rows);
                  trace_y := FloatSeries (height_cm <$> rows);
                  line_color := Some "green";
                  hovertemplate := hover_template |} ];
     layout := {| title_text := "Tomato Growth - Lot " +:+ pretty lot;
                  xaxis := {| xaxis_title := Some "Date";
                              rangeselector_buttons := range_buttons;
                              rangeslider_visible := Some true;
                              xaxis_type := Some "date" |};
                  yaxis_title := "Height (cm)";
                  hovermode := Some "x unified" |} |}.

(** The frame the statement comes back as for the rows it selected. *)
Definition frame_of (rows : list growth_log) : DataFrame :=
  Frame (length rows)
    (list_to_map
       [("log_date", DateSeries (log_date <$> rows));
        ("height_mm", IntSeries (height_mm <$> rows))]).

(** The calls of a run in which nothing fails. *)
Definition calls (w : world) (lot : Z) : list event :=
  [CreateEngine (db_url w); Connect; Execute query_sql {[ "lot_id" := lot ]}; Close].

(** What such a run returns for the rows it read. *)
Definition reply (lot : Z) (rows : list growth_log) : outcome response :=
  match rows with
  | [] => Return (HTMLResponse no_data_html 404)
  | _ :: _ => Return (HtmlString (to_html (figure_of lot rows) false "cdn"))
  end.

(** The detail the handlers of [get_growth_chart] give an exception. *)
Definition handled (w : world) (e : exn) : exn :=
  HTTPException 500
    (if is_SQLAlchemyError e then "Database error: " +:+ str w e else str w e).

(** A connection is handed out: the engine was built and [connect] returned. *)
Definition acquires (w : world) : bool :=
  match create_engine_error w (db_url w), connect_error w with
  | None, None => true
  | _, _ => false
  end.

(** The calls of a run, whatever the database does. *)
Definition calls_made (w : world) (lot : Z) : list event :=
  match create_engine_error w (db_url w), connect_error w with
  | Some _, _ => [CreateEngine (db_url w)]
  | None, Some _ => [CreateEngine (db_url w); Connect]
  | None, None => calls w lot
  end.

(** What a run returns or raises, whatever the database does. *)
Definition outcome_of (w : world) (lot : Z) : outcome response :=
  match create_engine_error w (db_url w), connect_error w, execute_error w with
  | Some e, _, _ =>
      Raise (HTTPException 500
               (http_exception_str w 500 ("Database connection failed: " +:+ str w e)))
  | None, Some e, _ => Raise (handled w e)
  | None, None, Some e => Raise (handled w (pd.reraise w query_sql e))
  | None, None, None => reply lot (series_rows w lot)
  end.

(** ** Example data *)

(** Two rows of lot 7 stored latest first, and a row of another lot. *)
Definition lot7_table : list growth_log :=
  [ GrowthLog 7 (Date 2024 1 8) 150;
    GrowthLog 3 (Date 2024 1 2) 99;
    GrowthLog 7 (Date 2024 1 1) 100 ].

(** [engine.connect()] cannot reach the server. *)
Definition unreachable : world :=
  World ∅ (λ _, None)
    (Some (SQLAlchemyError "(psycopg2.OperationalError) timeout expired"))
    None lot7_table (λ sc d, pretty sc +:+ ": " +:+ d) true.

(** No variable is set, and [create_engine] rejects the port of the URL. *)
Definition unconfigured : world :=
  World ∅
    (λ _, Some (PyException "ValueError" "invalid literal for int() with base 10: 'None'"))
    None None lot7_table (λ sc d, pretty sc +:+ ": " +:+ d) true.

(** The statement is cut short by an exception that is no [SQLAlchemyError]. *)
Definition timing_out : world :=
  World ∅ (λ _, None) None (Some (PyException "TimeoutError" "timed out"))
    lot7_table (λ sc d, pretty sc +:+ ": " +:+ d) true.

(** The server cancels the statement on its timeout and the driver reports
    it, under pandas 2.2 or later. *)
Definition cancelled : world :=
  World ∅ (λ _, None) None
    (Some (SQLAlchemyError
             "(psycopg2.errors.QueryCanceled) canceling statement due to statement timeout"))
    lot7_table (λ sc d, pretty sc +:+ ": " +:+ d) true.

(** The same failure under a pandas before 2.2. *)
Definition cancelled_earlier_pandas : world :=
  World ∅ (λ _, None) None
    (Some (SQLAlchemyError
             "(psycopg2.errors.QueryCanceled) canceling statement due to statement timeout"))
    lot7_table (λ sc d, pretty sc +:+ ": " +:+ d) false.

(** The response is a server error whose detail speaks of a database error. *)
Definition names_database_error (r : outcome response) : Prop :=
  ∃ d, r = Raise (HTTPException 500 d) ∧ Is_true (occurs "Database error" d).

(** ** The index route *)

(** [root()] *)
Definition root : M (gmap string string) :=
  ret {[ "message" :=
           "Plant Growth Visualization Service - Access /growth-data/{lot_id} for charts" ]}.

(** ** Checks over a range of heights *)

Global Instance date_eq_dec : EqDecision date.
Proof. solve_decision. Defined.

(** [f] holds at the [n] integers from [h] on. *)
Fixpoint all_from (f : Z → bool) (n : nat) (h : Z) : bool :=
  match n with
  | O => true
  | S n' => f h && all_from f n' (h + 1)
  end.

(** Ten times the centimetres of [h] millimetres is [h] again, bit for bit. *)
Definition recovers (h : Z) : bool :=
  PrimFloat.Leibniz.eqb
    (PrimFloat.mul (PrimFloat.div (float_of_Z h) 10%float) 10%float) (float_of_Z h).

(** The integer a finite float64 with no fraction stands for. *)
Definition Z_of_float (f : float) : Z :=
  match Prim2SF f with
  | S754_finite s m e => if s then - Z.shiftl (Z.pos m) e else Z.shiftl (Z.pos m) e
  | _ => 0
  end.

Definition reads_back (h : Z) : bool := Z_of_float (float_of_Z h) =? h.

(** ** More example data *)

Definition configured (user password : string) : gmap string string :=
  {[ "DB_USER" := user; "DB_PASSWORD" := password; "DB_HOST" := "db.farm.local";
     "DB_PORT" := "5432"; "DB_NAME" := "greenhouse" ]}.

(** The same database reached with a colon in the user name, or with that
    piece of the name moved into the password. *)
Definition colon_in_user : world :=
  World (configured "grower:admin" "s3cret") (λ _, None) None None lot7_table
    (λ sc d, pretty sc +:+ ": " +:+ d) true.

Definition colon_in_password : world :=
  World (configured "grower" "admin:s3cret") (λ _, None) None None lot7_table
    (λ sc d, pretty sc +:+ ": " +:+ d) true.


(** * Properties *)

Create HintDb growth discriminated.

(** ** Order of the selected rows *)

Lemma date_leb_le (a b : date) :
  date_leb a b = true
  ↔ year a < year b
    ∨ (year a = year b ∧ (month a < month b ∨ (month a = month b ∧ day a ≤ day b))).
Proof.
  unfold date_leb.
  destruct (Z.compare_spec (year a) (year b));
    destruct (Z.compare_spec (month a) (month b));
    rewrite ?Z.leb_le; split; intros; try lia; try discriminate; auto.
Qed.

Global Instance date_le_total : Total date_le.
Proof.
  intros a b. unfold date_le. rewrite !Is_true_true, !date_leb_le. lia.
Qed.

Global Instance date_le_trans : Transitive date_le.
Proof.
  intros a b c. unfold date_le. rewrite !Is_true_true, !date_leb_le. lia.
Qed.

Global Instance date_le_antisymm : AntiSymm (=) date_le.
Proof.
  intros [ya ma da] [yb mb db]. unfold date_le.
  rewrite !Is_true_true, !date_leb_le. simpl. intros H1 H2.
  f_equal; lia.
Qed.

Lemma order_by_log_date (r1 r2 : growth_log) :
  order_by "log_date" r1 r2 ↔ date_le (log_date r1) (log_date r2).
Proof. reflexivity. Qed.

Global Instance order_by_log_date_total : Total (order_by "log_date").
Proof. intros r1 r2. rewrite !order_by_log_date. apply date_le_total. Qed.

Section Rows.
Context (w : world) (lot : Z).

Lemma series_rows_stored : series_rows w lot ≡ₚ stored w lot.
Proof. apply merge_sort_Permutation. Qed.

Lemma series_rows_sorted : Sorted date_le (log_date <$> series_rows w lot).
Proof.
  apply (Sorted_fmap log_date (order_by "log_date")).
  - intros r1 r2. apply order_by_log_date.
  - apply Sorted_merge_sort, _.
Qed.

Lemma series_rows_nil : series_rows w lot = [] ↔ stored w lot = [].
Proof.
  split; intros H; apply Permutation_nil_r; rewrite <- H;
    [symmetry|]; apply series_rows_stored.
Qed.

Lemma series_rows_cons : stored w lot ≠ [] → series_rows w lot ≠ [].
Proof. by rewrite series_rows_nil. Qed.

End Rows.

#[global] Hint Resolve series_rows_stored series_rows_sorted series_rows_cons : growth.

(** The dates of a lot come out the same whatever order the rows went in. *)
Lemma series_dates_insertion_order (w1 w2 : world) (lot : Z) :
  growth_logs w1 ≡ₚ growth_logs w2 →
  log_date <$> series_rows w1 lot = log_date <$> series_rows w2 lot.
Proof.
  intros Hp. apply (Sorted_unique date_le); auto with growth.
  apply fmap_Permutation.
  rewrite !series_rows_stored. unfold stored. by rewrite Hp.
Qed.

Lemma stored_insertion_order (w1 w2 : world) (lot : Z) :
  growth_logs w1 ≡ₚ growth_logs w2 → stored w1 lot ≠ [] → stored w2 lot ≠ [].
Proof.
  intros Hp Hne Hnil. apply Hne, Permutation_nil_r.
  rewrite <- Hnil. unfold stored. by rewrite Hp.
Qed.

(** ** The statement and the rows it selects *)

Lemma parse_query_sql :
  parse_select (tokenize query_sql "")
  = Some (Select ["log_date"; "height_mm"] "growth_logs" "lot_id" "lot_id" "log_date").
Proof. vm_compute. reflexivity. Qed.

Lemma select_rows_query (w : world) (lot : Z) :
  select_rows (growth_logs w)
    (Select ["log_date"; "height_mm"] "growth_logs" "lot_id" "lot_id" "log_date") lot
  = series_rows w lot.
Proof.
  unfold select_rows, series_rows, stored. simpl. f_equal.
  apply list_filter_iff. intros r. unfold matches. simpl.
  rewrite bool_decide_spec. reflexivity.
Qed.

(** ** A run against a database that answers *)

Section Answering.
Context (w : world) (lot : Z).
Hypothesis Hcreate : create_engine_error w (db_url w) = None.
Hypothesis Hconnect : connect_error w = None.
Hypothesis Hexecute : execute_error w = None.

Lemma read_sql_query_answers (c : connection) (s : state) :
  pd.read_sql_query w (text query_sql) c {[ "lot_id" := lot ]} s
  = (Return (frame_of (series_rows w lot)),
     State (open_conns s) (events s ++ [Execute query_sql {[ "lot_id" := lot ]}])).
Proof.
  unfold pd.read_sql_query, bind, emit. rewrite Hexecute.
  change (clause_sql (text query_sql)) with query_sql.
  rewrite parse_query_sql. unfold run_select.
  change (sel_where_param _) with "lot_id".
  rewrite lookup_singleton_eq, select_rows_query.
  reflexivity.
Qed.

Lemma get_db_engine_answers (s : state) :
  get_db_engine w s
  = (Return (Engine (db_url w)),
     State (open_conns s) (events s ++ [CreateEngine (db_url w)])).
Proof.
  unfold get_db_engine, try_except, create_engine, bind, emit.
  rewrite Hcreate. reflexivity.
Qed.

Lemma with_connect_answers (e : engine) (s : state) :
  with_connect w e (λ c, pd.read_sql_query w (text query_sql) c {[ "lot_id" := lot ]}) s
  = (Return (frame_of (series_rows w lot)),
     State (open_conns s)
       (events s ++ [Connect; Execute query_sql {[ "lot_id" := lot ]}; Close])).
Proof.
  unfold with_connect, connect, bind, emit. rewrite Hconnect.
  rewrite read_sql_query_answers.
  unfold close. simpl. rewrite <- !app_assoc. reflexivity.
Qed.

End Answering.

(** Entering the [try] of [get_growth_chart] with an engine at hand. *)
Ltac enter_body H :=
  unfold get_growth_chart, try_except, growth_chart_body, bind;
  rewrite get_db_engine_answers by exact H.

Lemma reply_cons (lot : Z) (rows : list growth_log) :
  rows ≠ [] →
  reply lot rows = Return (HtmlString (to_html (figure_of lot rows) false "cdn")).
Proof. by destruct rows. Qed.

Lemma get_growth_chart_answers (w : world) (lot : Z) (s : state) :
  answers w →
  get_growth_chart w lot s
  = (reply lot (series_rows w lot), State (open_conns s) (events s ++ calls w lot)).
Proof.
  intros (Hce & Hco & Hex). enter_body Hce.
  rewrite with_connect_answers by assumption.
  simpl open_conns. simpl events. rewrite <- app_assoc. simpl app.
  unfold calls, frame_of.
  destruct (series_rows w lot) as [|r rows]; [reflexivity|].
  unfold reply, figure_of.
  change (height_cm <$> r :: rows)
    with ((λ z, PrimFloat.div (float_of_Z z) 10%float) ∘ height_mm <$> r :: rows).
  rewrite !(list_fmap_compose _ _ (r :: rows)).
  reflexivity.
Qed.

(** With rows stored for the lot, the run returns their figure. *)
Lemma get_growth_chart_figure (w : world) (lot : Z) (s : state) :
  answers w →
  stored w lot ≠ [] →
  fst (get_growth_chart w lot s)
  = Return (HtmlString (to_html (figure_of lot (series_rows w lot)) false "cdn")).
Proof.
  intros Hw Hne. rewrite get_growth_chart_answers by exact Hw.
  apply reply_cons. auto with growth.
Qed.

Lemma answers_healthy (tbl : list growth_log) : answers (healthy tbl).
Proof. repeat split. Qed.

(** ** Runs in which a call fails *)

Lemma create_engine_fails (w : world) (lot : Z) (s : state) (e : exn) :
  create_engine_error w (db_url w) = Some e →
  get_growth_chart w lot s
  = (Raise (HTTPException 500
              (http_exception_str w 500 ("Database connection failed: " +:+ str w e))),
     State (open_conns s) (events s ++ [CreateEngine (db_url w)])).
Proof.
  intros Hce.
  unfold get_growth_chart, growth_chart_body, get_db_engine, try_except,
    create_engine, bind, emit, raise.
  rewrite Hce. reflexivity.
Qed.

Lemma connect_fails (w : world) (lot : Z) (s : state) (e : exn) :
  create_engine_error w (db_url w) = None →
  connect_error w = Some e →
  get_growth_chart w lot s
  = (Raise (handled w e),
     State (open_conns s) (events s ++ [CreateEngine (db_url w); Connect])).
Proof.
  intros Hce Hco. enter_body Hce.
  unfold with_connect, connect, bind, emit, raise, handled. rewrite Hco.
  simpl. rewrite <- app_assoc. destruct (is_SQLAlchemyError e); reflexivity.
Qed.

Lemma execute_fails (w : world) (lot : Z) (s : state) (e : exn) :
  create_engine_error w (db_url w) = None →
  connect_error w = None →
  execute_error w = Some e →
  get_growth_chart w lot s
  = (Raise (handled w (pd.reraise w query_sql e)),
     State (open_conns s) (events s ++ calls w lot)).
Proof.
  intros Hce Hco Hex. enter_body Hce.
  unfold with_connect, connect, pd.read_sql_query, close, bind, emit, raise, handled.
  rewrite Hco, Hex. simpl. rewrite <- !app_assoc.
  destruct (is_SQLAlchemyError (pd.reraise w query_sql e)); reflexivity.
Qed.

(** Every run, in full: its outcome, the connections it leaves open and the
    calls it made. *)
Lemma get_growth_chart_run (w : world) (lot : Z) (s : state) :
  get_growth_chart w lot s
  = (outcome_of w lot, State (open_conns s) (events s ++ calls_made w lot)).
Proof.
  unfold outcome_of, calls_made.
  destruct (create_engine_error w (db_url w)) as [e1|] eqn:Hce.
  { by rewrite (create_engine_fails _ _ _ _ Hce). }
  destruct (connect_error w) as [e2|] eqn:Hco.
  { by rewrite (connect_fails _ _ _ _ Hce Hco). }
  destruct (execute_error w) as [e3|] eqn:Hex.
  { by rewrite (execute_fails _ _ _ _ Hce Hco Hex). }
  by rewrite get_growth_chart_answers.
Qed.

Lemma get_growth_chart_state (w : world) (lot : Z) (s : state) :
  snd (get_growth_chart w lot s)
  = State (open_conns s) (events s ++ calls_made w lot).
Proof. by rewrite get_growth_chart_run. Qed.

(** Whatever fails while the session is set up, the run raises an
    [HTTPException] with status 500 and returns nothing. *)
Lemma session_failure_is_server_error (w : world) (lot : Z) (s : state) :
  acquires w = false →
  ∃ d, fst (get_growth_chart w lot s) = Raise (HTTPException 500 d).
Proof.
  unfold acquires. intros Hacq.
  destruct (create_engine_error w (db_url w)) as [e1|] eqn:Hce.
  { rewrite (create_engine_fails _ _ _ _ Hce). eauto. }
  destruct (connect_error w) as [e2|] eqn:Hco; [|discriminate].
  rewrite (connect_fails _ _ _ _ Hce Hco). unfold handled. eauto.
Qed.

(** ** The endpoint against its specification *)

(** The end-to-end example: lot 7 with 100 mm on 2024-01-01 and 150 mm on
    2024-01-08 yields the points (2024-01-01, 10.0) and (2024-01-08, 15.0)
    in that order, also when the later row was stored first. *)
Example lot7_chart :
  ∃ fig tr,
    fst (get_growth_chart (healthy lot7_table) 7 initial)
    = Return (HtmlString (to_html fig false "cdn"))
    ∧ data fig = [tr]
    ∧ trace_x tr = TimestampSeries [midnight (Date 2024 1 1); midnight (Date 2024 1 8)]
    ∧ trace_y tr = FloatSeries [10%float; 15%float].
Proof. eexists _, _. repeat split. Qed.

(** C1. When the database answers and the lot has at least one stored row,
    the run returns a chart with one trace whose points stand one-to-one for
    the stored rows of the lot (a permutation of them, ascending by date):
    x holds their dates and y holds their height_mm divided by 10. *)
Theorem chart_heights_are_stored_heights_over_ten
    (w : world) (lot : Z) (s : state) :
  answers w →
  stored w lot ≠ [] →
  ∃ rows fig tr,
    fst (get_growth_chart w lot s) = Return (HtmlString (to_html fig false "cdn"))
    ∧ data fig = [tr]
    ∧ rows ≡ₚ stored w lot
    ∧ Sorted date_le (log_date <$> rows)
    ∧ trace_x tr = TimestampSeries ((λ r, midnight (log_date r)) <$> rows)
    ∧ trace_y tr
      = FloatSeries ((λ r, PrimFloat.div (float_of_Z (height_mm r)) 10%float) <$> rows).
Proof.
  intros Hw Hne.
  exists (series_rows w lot), (figure_of lot (series_rows w lot)). eexists.
  rewrite get_growth_chart_figure by done.
  repeat split; auto with growth.
Qed.

(** C1 at the table of the example. *)
Lemma chart_heights_lot7 :
  ∃ rows fig tr,
    fst (get_growth_chart (healthy lot7_table) 7 initial)
    = Return (HtmlString (to_html fig false "cdn"))
    ∧ data fig = [tr]
    ∧ rows ≡ₚ stored (healthy lot7_table) 7
    ∧ Sorted date_le (log_date <$> rows)
    ∧ trace_x tr = TimestampSeries ((λ r, midnight (log_date r)) <$> rows)
    ∧ trace_y tr
      = FloatSeries ((λ r, PrimFloat.div (float_of_Z (height_mm r)) 10%float) <$> rows).
Proof.
  apply (chart_heights_are_stored_heights_over_ten (healthy lot7_table) 7 initial).
  - repeat split.
  - vm_compute. discriminate.
Defined.

(** C2. When the database answers and no row is stored for the lot, the run
    returns the 404 response whose body carries the no-data message, and it
    returns no chart. *)
Theorem no_rows_is_not_found (w : world) (lot : Z) (s : state) :
  answers w →
  stored w lot = [] →
  fst (get_growth_chart w lot s) = Return (HTMLResponse no_data_html 404)
  ∧ Is_true (occurs "No data found" no_data_html)
  ∧ ∀ h, fst (get_growth_chart w lot s) ≠ Return (HtmlString h).
Proof.
  intros Hw Hnil. rewrite get_growth_chart_answers by exact Hw.
  apply series_rows_nil in Hnil. rewrite Hnil. simpl.
  split; [reflexivity|]. split; [exact I | discriminate].
Qed.

(** C2 at lot 8, which the example table does not hold. *)
Lemma no_rows_lot8 :
  fst (get_growth_chart (healthy lot7_table) 8 initial)
  = Return (HTMLResponse no_data_html 404)
  ∧ Is_true (occurs "No data found" no_data_html)
  ∧ ∀ h, fst (get_growth_chart (healthy lot7_table) 8 initial) ≠ Return (HtmlString h).
Proof.
  apply (no_rows_is_not_found (healthy lot7_table) 8 initial).
  - repeat split.
  - vm_compute. reflexivity.
Defined.

(** C3. A failure to establish the session, evaluated.  When
    [engine.connect()] raises, the detail is the one of a database error and
    says nothing of a failed connection; when [create_engine] raises, the
    exception of [get_db_engine] is caught again by the last handler and its
    detail is [str] of that exception, not the detail it was given. *)
Theorem session_failure_details :
  fst (get_growth_chart unreachable 7 initial)
  = Raise (HTTPException 500
             "Database error: (psycopg2.OperationalError) timeout expired")
  ∧ occurs "connection" "Database error: (psycopg2.OperationalError) timeout expired"
    = false
  ∧ fst (get_growth_chart unconfigured 7 initial)
    = Raise (HTTPException 500
               "500: Database connection failed: invalid literal for int() with base 10: 'None'").
Proof. repeat split. Qed.

(** C4. A failed statement, evaluated.  Under pandas 2.2 or later the
    [SQLAlchemyError] of the driver leaves [pd.read_sql_query] as a
    [DatabaseError], which is no [SQLAlchemyError]: the first handler does
    not take it, and the detail is the message of the [DatabaseError] alone,
    without the words Database error.  Under an earlier pandas the first
    handler takes the same failure and labels it. *)
Theorem query_failure_details :
  fst (get_growth_chart cancelled 7 initial)
  = Raise (HTTPException 500
             ("Execution failed on sql '" +:+ query_sql +:+
              "': (psycopg2.errors.QueryCanceled) canceling statement due to statement timeout"))
  ∧ ¬ names_database_error (fst (get_growth_chart cancelled 7 initial))
  ∧ fst (get_growth_chart cancelled_earlier_pandas 7 initial)
    = Raise (HTTPException 500
               "Database error: (psycopg2.errors.QueryCanceled) canceling statement due to statement timeout").
Proof.
  split; [reflexivity|]. split; [|reflexivity].
  intros (d & Hd & Hocc).
  vm_compute in Hd. injection Hd as <-. vm_compute in Hocc. exact Hocc.
Qed.

(** Under a pandas that lets the driver's exception through, a statement
    failing with a [SQLAlchemyError] is named a database error. *)
Lemma query_failure_labelled (w : world) (lot : Z) (s : state) (msg : string) :
  pandas_wraps w = false →
  create_engine_error w (db_url w) = None →
  connect_error w = None →
  execute_error w = Some (SQLAlchemyError msg) →
  fst (get_growth_chart w lot s)
  = Raise (HTTPException 500 ("Database error: " +:+ msg)).
Proof.
  intros Hp Hce Hco Hex. rewrite (execute_fails _ _ _ _ Hce Hco Hex).
  unfold handled, pd.reraise. by rewrite Hp.
Qed.

(** Under pandas 2.2 or later the same failure carries the message of the
    [DatabaseError] and no label. *)
Lemma query_failure_unlabelled (w : world) (lot : Z) (s : state) (msg : string) :
  pandas_wraps w = true →
  create_engine_error w (db_url w) = None →
  connect_error w = None →
  execute_error w = Some (SQLAlchemyError msg) →
  fst (get_growth_chart w lot s)
  = Raise (HTTPException 500
             ("Execution failed on sql '" +:+ query_sql +:+ "': " +:+ msg)).
Proof.
  intros Hp Hce Hco Hex. rewrite (execute_fails _ _ _ _ Hce Hco Hex).
  unfold handled, pd.reraise. by rewrite Hp.
Qed.

(** C5. When the database answers and the lot has rows, the dates of the
    rendered series are the dates stored for the lot, each as often as it is
    stored, in ascending order; and a table holding the same rows in any
    other order renders the same dates. *)
Theorem rendered_dates_ascend (w : world) (lot : Z) (s : state) :
  answers w →
  stored w lot ≠ [] →
  ∃ fig tr ds,
    fst (get_growth_chart w lot s) = Return (HtmlString (to_html fig false "cdn"))
    ∧ data fig = [tr]
    ∧ trace_x tr = TimestampSeries (midnight <$> ds)
    ∧ ds ≡ₚ log_date <$> stored w lot
    ∧ Sorted date_le ds
    ∧ ∀ w' s', answers w' → growth_logs w' ≡ₚ growth_logs w →
        ∃ fig' tr',
          fst (get_growth_chart w' lot s') = Return (HtmlString (to_html fig' false "cdn"))
          ∧ data fig' = [tr']
          ∧ trace_x tr' = TimestampSeries (midnight <$> ds).
Proof.
  intros Hw Hne.
  exists (figure_of lot (series_rows w lot)). eexists.
  exists (log_date <$> series_rows w lot).
  rewrite get_growth_chart_figure by done.
  repeat split; auto with growth.
  { simpl. by rewrite list_fmap_compose. }
  { apply fmap_Permutation, series_rows_stored. }
  intros w' s' Hw' Hp. symmetry in Hp.
  exists (figure_of lot (series_rows w' lot)). eexists.
  rewrite get_growth_chart_figure by eauto using stored_insertion_order.
  repeat split. simpl.
  by rewrite list_fmap_compose, (series_dates_insertion_order w w' lot Hp).
Qed.

(** C5 at the table of the example, stored latest row first. *)
Lemma rendered_dates_lot7 :
  ∃ fig tr ds,
    fst (get_growth_chart (healthy lot7_table) 7 initial)
    = Return (HtmlString (to_html fig false "cdn"))
    ∧ data fig = [tr]
    ∧ trace_x tr = TimestampSeries (midnight <$> ds)
    ∧ ds ≡ₚ log_date <$> stored (healthy lot7_table) 7
    ∧ Sorted date_le ds
    ∧ ∀ w' s', answers w' → growth_logs w' ≡ₚ growth_logs (healthy lot7_table) →
        ∃ fig' tr',
          fst (get_growth_chart w' 7 s') = Return (HtmlString (to_html fig' false "cdn"))
          ∧ data fig' = [tr']
          ∧ trace_x tr' = TimestampSeries (midnight <$> ds).
Proof.
  apply (rendered_dates_ascend (healthy lot7_table) 7 initial).
  - repeat split.
  - vm_compute. discriminate.
Defined.

(** C6. 305 mm is exactly 30.5 cm: dividing the column by 10 gives the
    float64 30.5, whose mantissa and exponent are 61 * 2^47 and -48, that is
    61/2; the same value is what the chart of a lot holding that row plots. *)
Theorem height_305_is_30_5 :
  truediv (IntSeries [305]) 10 = Return (FloatSeries [30.5%float])
  ∧ Prim2SF 30.5%float = S754_finite false 8584986789675008 (-48)
  ∧ (8584986789675008 = 61 * 2 ^ 47)%positive
  ∧ ∃ fig tr,
      fst (get_growth_chart (healthy [GrowthLog 1 (Date 2024 1 1) 305]) 1 initial)
      = Return (HtmlString (to_html fig false "cdn"))
      ∧ data fig = [tr]
      ∧ trace_y tr = FloatSeries [30.5%float].
Proof.
  split; [reflexivity|]. split; [reflexivity|]. split; [reflexivity|].
  eexists _, _. repeat split.
Qed.

(** Every multiple of 5 mm up to 5 m converts without rounding: twice the
    centimetres of 5k mm is k. *)
Lemma multiples_of_five_exact :
  forallb (λ k, PrimFloat.eqb
                  (PrimFloat.mul (PrimFloat.div (float_of_Z (5 * k)) 10%float) 2%float)
                  (float_of_Z k))
    (seqZ 0 1001) = true.
Proof. vm_compute. reflexivity. Qed.

(** C7. The only statement a run submits is the fixed text of [query_sql]
    with the lot bound to the parameter lot_id; it is submitted once when a
    connection is handed out and not at all otherwise, and the texts
    submitted for two lots are the same. *)
Theorem statement_is_fixed_and_bound (w : world) (lot lot' : Z) :
  submitted (trace w lot)
  = (if acquires w then [(query_sql, {[ "lot_id" := lot ]})] else [])
  ∧ (submitted (trace w lot)).*1 = (submitted (trace w lot')).*1.
Proof.
  assert (∀ l, submitted (trace w l)
               = if acquires w then [(query_sql, {[ "lot_id" := l ]})] else [])
    as Hsub.
  { intros l. unfold trace. rewrite get_growth_chart_state.
    unfold calls_made, acquires, calls.
    destruct (create_engine_error w (db_url w)); [reflexivity|].
    destruct (connect_error w); reflexivity. }
  split; [apply Hsub|]. rewrite !Hsub. destruct (acquires w); reflexivity.
Qed.

(** C8. A run leaves as many connections open as it found.  Its calls hold
    exactly one [Close] when a connection was handed out, whether the
    statement then returned rows, returned none or raised, and no [Close]
    when none was. *)
Theorem connection_is_released (w : world) (lot : Z) (s : state) :
  open_conns (snd (get_growth_chart w lot s)) = open_conns s
  ∧ ∃ evs : list event,
      events (snd (get_growth_chart w lot s)) = (events s ++ evs)%list
      ∧ closes evs = (if acquires w then 1%nat else 0%nat).
Proof.
  rewrite get_growth_chart_state. split; [reflexivity|].
  exists (calls_made w lot). split; [reflexivity|].
  unfold calls_made, acquires, calls.
  destruct (create_engine_error w (db_url w)); [reflexivity|].
  destruct (connect_error w); reflexivity.
Qed.

(** C9. When the database answers and the lot has rows, the chart is one
    scatter trace drawn as a line with markers; its title ends in the lot
    number; the axes are titled Date and Height (cm); the range selector has
    the buttons 7 days back, 1 month back and all; the range slider is
    visible; hover is unified on x and its template prints the date as
    year-month-day, the height with one decimal, and an empty extra box. *)
Theorem chart_is_configured (w : world) (lot : Z) (s : state) :
  answers w →
  stored w lot ≠ [] →
  ∃ fig tr,
    fst (get_growth_chart w lot s) = Return (HtmlString (to_html fig false "cdn"))
    ∧ data fig = [tr]
    ∧ trace_type tr = "scatter"
    ∧ mode tr = "lines+markers"
    ∧ title_text (layout fig) = "Tomato Growth - Lot " +:+ pretty lot
    ∧ yaxis_title (layout fig) = "Height (cm)"
    ∧ xaxis_title (xaxis (layout fig)) = Some "Date"
    ∧ rangeselector_buttons (xaxis (layout fig))
      = [ {| count := Some 7; label := Some "1w";
             step := Some "day"; stepmode := Some "backward" |};
          {| count := Some 1; label := Some "1m";
             step := Some "month"; stepmode := Some "backward" |};
          {| count := None; label := None; step := Some "all"; stepmode := None |} ]
    ∧ rangeslider_visible (xaxis (layout fig)) = Some true
    ∧ hovermode (layout fig) = Some "x unified"
    ∧ hovertemplate tr
      = "<b>Date:</b> %{x|%Y-%m-%d}<br><b>Height:</b> %{y:.1f} cm<br><extra></extra>".
Proof.
  intros Hw Hne.
  exists (figure_of lot (series_rows w lot)). eexists.
  rewrite get_growth_chart_figure by done.
  repeat split.
Qed.

(** C9 at the table of the example. *)
Lemma chart_is_configured_lot7 :
  ∃ fig tr,
    fst (get_growth_chart (healthy lot7_table) 7 initial)
    = Return (HtmlString (to_html fig false "cdn"))
    ∧ data fig = [tr]
    ∧ trace_type tr = "scatter"
    ∧ mode tr = "lines+markers"
    ∧ title_text (layout fig) = "Tomato Growth - Lot 7"
    ∧ yaxis_title (layout fig) = "Height (cm)"
    ∧ xaxis_title (xaxis (layout fig)) = Some "Date"
    ∧ rangeselector_buttons (xaxis (layout fig))
      = [ {| count := Some 7; label := Some "1w";
             step := Some "day"; stepmode := Some "backward" |};
          {| count := Some 1; label := Some "1m";
             step := Some "month"; stepmode := Some "backward" |};
          {| count := None; label := None; step := Some "all"; stepmode := None |} ]
    ∧ rangeslider_visible (xaxis (layout fig)) = Some true
    ∧ hovermode (layout fig) = Some "x unified"
    ∧ hovertemplate tr
      = "<b>Date:</b> %{x|%Y-%m-%d}<br><b>Height:</b> %{y:.1f} cm<br><extra></extra>".
Proof.
  apply (chart_is_configured (healthy lot7_table) 7 initial).
  - repeat split.
  - vm_compute. discriminate.
Defined.

(** C10. Whenever the database answers and a lot has no rows, the body of
    the 404 response is the one text below, the same for every lot and
    every table: the lot number is not written into it. *)
Theorem no_data_body_is_fixed
    (w w' : world) (lot lot' : Z) (s s' : state) :
  answers w → stored w lot = [] →
  answers w' → stored w' lot' = [] →
  fst (get_growth_chart w lot s)
  = Return (HTMLResponse "<h2>No data found for this lot ID</h2>" 404)
  ∧ fst (get_growth_chart w' lot' s') = fst (get_growth_chart w lot s).
Proof.
  intros Hw Hnil Hw' Hnil'.
  rewrite !get_growth_chart_answers by assumption.
  apply series_rows_nil in Hnil, Hnil'. rewrite Hnil, Hnil'.
  split; reflexivity.
Qed.

(** C10 at lot 8 of the example table and lot 9 of an empty table. *)
Lemma no_data_body_lot8_lot9 :
  fst (get_growth_chart (healthy lot7_table) 8 initial)
  = Return (HTMLResponse "<h2>No data found for this lot ID</h2>" 404)
  ∧ fst (get_growth_chart (healthy []) 9 initial)
    = fst (get_growth_chart (healthy lot7_table) 8 initial).
Proof.
  apply (no_data_body_is_fixed (healthy lot7_table) (healthy []) 8 9 initial initial).
  - repeat split.
  - vm_compute. reflexivity.
  - repeat split.
  - vm_compute. reflexivity.
Defined.

(** ** Further properties of the service *)

Lemma string_append_assoc (a b c : string) : (a +:+ b) +:+ c = a +:+ (b +:+ c).
Proof.
  induction a as [|x a IH]; [reflexivity|].
  change (String x ((a +:+ b) +:+ c) = String x (a +:+ b +:+ c)). by rewrite IH.
Qed.

Lemma answers_dec (w : world) : answers w ∨ ¬ answers w.
Proof.
  unfold answers.
  destruct (create_engine_error w (db_url w)), (connect_error w), (execute_error w);
    (left; done) || (right; intros (? & ? & ?); discriminate).
Qed.

Lemma not_answers_raises (w : world) (lot : Z) :
  ¬ answers w → ∃ e, outcome_of w lot = Raise e.
Proof.
  unfold answers, outcome_of. intros Hn.
  destruct (create_engine_error w (db_url w)); [eauto|].
  destruct (connect_error w); [eauto|].
  destruct (execute_error w); [eauto|].
  by destruct Hn.
Qed.

Lemma answers_outcome (w : world) (lot : Z) :
  answers w → outcome_of w lot = reply lot (series_rows w lot).
Proof. unfold outcome_of. by intros (-> & -> & ->). Qed.

Lemma chart_title (w : world) (lot : Z) (s : state) (h : Html) :
  fst (get_growth_chart w lot s) = Return (HtmlString h) →
  title_text (layout (html_fig h)) = "Tomato Growth - Lot " +:+ pretty lot.
Proof.
  rewrite get_growth_chart_run. unfold outcome_of, handled. simpl.
  destruct (create_engine_error w (db_url w)); [done|].
  destruct (connect_error w); [done|].
  destruct (execute_error w); [done|].
  destruct (series_rows w lot); simpl; [done|].
  by intros [= <-].
Qed.

(** X1. [get_db_engine] calls [create_engine] once, with the URL built from
    the environment, and opens no connection.  It returns the engine of that
    URL, or, whatever class of exception [create_engine] raised, raises an
    [HTTPException] with status 500 whose detail is Database connection
    failed: followed by the message. *)
Theorem get_db_engine_wraps (w : world) (s : state) :
  get_db_engine w s
  = (match create_engine_error w (db_url w) with
     | None => Return (Engine (db_url w))
     | Some e =>
         Raise (HTTPException 500 ("Database connection failed: " +:+ str w e))
     end,
     State (open_conns s) (events s ++ [CreateEngine (db_url w)])).
Proof.
  unfold get_db_engine, try_except, create_engine, bind, emit, raise, ret.
  destruct (create_engine_error w (db_url w)); reflexivity.
Qed.

(** X2. The URL takes the variables as they are, without escaping: a user
    name holding a colon and the same text with the piece after the colon
    moved in front of the password give one and the same URL. *)
Theorem db_url_unescaped (w1 w2 : world) (u x p : string) :
  environ w1 !! "DB_USER" = Some (u +:+ ":" +:+ x) →
  environ w1 !! "DB_PASSWORD" = Some p →
  environ w2 !! "DB_USER" = Some u →
  environ w2 !! "DB_PASSWORD" = Some (x +:+ ":" +:+ p) →
  environ w1 !! "DB_HOST" = environ w2 !! "DB_HOST" →
  environ w1 !! "DB_PORT" = environ w2 !! "DB_PORT" →
  environ w1 !! "DB_NAME" = environ w2 !! "DB_NAME" →
  db_url w1 = db_url w2.
Proof.
  intros U1 P1 U2 P2 H Po N. unfold db_url, getenv.
  rewrite U1, P1, U2, P2, H, Po, N. simpl.
  rewrite !string_append_assoc. reflexivity.
Qed.

(** X2 at the user grower:admin with password s3cret, against the user
    grower with password admin:s3cret. *)
Lemma db_url_colon_example :
  db_url colon_in_user = db_url colon_in_password
  ∧ db_url colon_in_user
    = "postgresql://grower:admin:s3cret@db.farm.local:5432/greenhouse".
Proof.
  split; [|reflexivity].
  apply (db_url_unescaped colon_in_user colon_in_password "grower" "admin" "s3cret");
    reflexivity.
Defined.

(** X3. A run ends in one of three ways: it returns a chart serialised by
    [to_html], it returns the 404 response, or it raises an [HTTPException]
    with status 500.  No other exception and no other status leaves it. *)
Theorem get_growth_chart_outcomes (w : world) (lot : Z) (s : state) :
  (∃ fig, fst (get_growth_chart w lot s) = Return (HtmlString (to_html fig false "cdn")))
  ∨ fst (get_growth_chart w lot s) = Return (HTMLResponse no_data_html 404)
  ∨ ∃ d, fst (get_growth_chart w lot s) = Raise (HTTPException 500 d).
Proof.
  rewrite get_growth_chart_run. unfold outcome_of, handled. simpl.
  destruct (create_engine_error w (db_url w)); [eauto|].
  destruct (connect_error w); [eauto|].
  destruct (execute_error w); [eauto|].
  destruct (series_rows w lot); simpl; eauto.
Qed.

(** X4. A chart is returned only if every database call succeeded and the
    lot has a stored row: never after a failure, never for no rows. *)
Theorem chart_only_from_rows (w : world) (lot : Z) (s : state) (h : Html) :
  fst (get_growth_chart w lot s) = Return (HtmlString h) →
  answers w ∧ stored w lot ≠ [].
Proof.
  rewrite get_growth_chart_run. simpl. intros Hh.
  destruct (answers_dec w) as [Hw|Hw].
  - split; [done|]. rewrite answers_outcome in Hh by done.
    rewrite <- series_rows_nil. intros Hnil. by rewrite Hnil in Hh.
  - destruct (not_answers_raises w lot Hw) as [e He]. congruence.
Qed.

(** X4 at lot 7 of the example table. *)
Lemma chart_only_from_rows_lot7 :
  answers (healthy lot7_table) ∧ stored (healthy lot7_table) 7 ≠ [].
Proof.
  apply (chart_only_from_rows (healthy lot7_table) 7 initial
           (to_html (figure_of 7 (series_rows (healthy lot7_table) 7)) false "cdn")).
  reflexivity.
Defined.

(** X5. An [HTMLResponse] of the handler's own, the 404, comes back exactly
    when every database call succeeded and the lot has no stored row: a
    failing database is never reported as a lot without data. *)
Theorem not_found_only_without_rows (w : world) (lot : Z) (s : state) :
  (∃ body code, fst (get_growth_chart w lot s) = Return (HTMLResponse body code))
  ↔ answers w ∧ stored w lot = [].
Proof.
  rewrite get_growth_chart_run. simpl. split.
  - intros (b & c & Hh). destruct (answers_dec w) as [Hw|Hw].
    + split; [done|]. rewrite answers_outcome in Hh by done.
      rewrite <- series_rows_nil. by destruct (series_rows w lot).
    + destruct (not_answers_raises w lot Hw) as [e He]. congruence.
  - intros [Hw Hnil]. rewrite answers_outcome by done.
    apply series_rows_nil in Hnil. rewrite Hnil. simpl. eauto.
Qed.

(** X6. No failure is swallowed: when [create_engine], [engine.connect()]
    or the statement fails, the run raises an [HTTPException] with status
    500; it returns neither a chart nor the no-data page. *)
Theorem failure_is_never_swallowed (w : world) (lot : Z) (s : state) :
  ¬ answers w →
  ∃ d, fst (get_growth_chart w lot s) = Raise (HTTPException 500 d).
Proof.
  intros Hw. rewrite get_growth_chart_run. unfold outcome_of, handled. simpl.
  destruct (create_engine_error w (db_url w)) eqn:Hce; [eauto|].
  destruct (connect_error w) eqn:Hco; [eauto|].
  destruct (execute_error w) eqn:Hex; [eauto|].
  by destruct Hw.
Qed.

(** X6 at a statement that times out. *)
Lemma failure_is_never_swallowed_timing_out :
  ∃ d, fst (get_growth_chart timing_out 7 initial) = Raise (HTTPException 500 d).
Proof.
  apply (failure_is_never_swallowed timing_out 7 initial).
  intros (_ & _ & Hex). vm_compute in Hex. discriminate.
Defined.



(** X8. Requests share nothing: of two requests served one after the other,
    each answers as it would in a fresh process, each starts by building an
    engine of its own, and after both no connection is left open. *)
Theorem requests_share_nothing (w : world) (lot lot' : Z) (s : state) :
  let '(r1, s1) := get_growth_chart w lot s in
  let '(r2, s2) := get_growth_chart w lot' s1 in
  r1 = fst (get_growth_chart w lot initial)
  ∧ r2 = fst (get_growth_chart w lot' initial)
  ∧ open_conns s2 = open_conns s
  ∧ events s2 = (events s ++ trace w lot ++ trace w lot')%list
  ∧ head (trace w lot') = Some (CreateEngine (db_url w)).
Proof.
  unfold trace. rewrite !get_growth_chart_run. simpl.
  rewrite <- app_assoc. repeat split.
  unfold calls_made, calls.
  destruct (create_engine_error w (db_url w)); [done|].
  by destruct (connect_error w).
Qed.

(** X9. The title tells the lots apart: whenever charts are returned for two
    different lots, their titles differ. *)
Theorem titles_tell_lots_apart
    (w w' : world) (lot lot' : Z) (s s' : state) (h h' : Html) :
  fst (get_growth_chart w lot s) = Return (HtmlString h) →
  fst (get_growth_chart w' lot' s') = Return (HtmlString h') →
  lot ≠ lot' →
  title_text (layout (html_fig h)) ≠ title_text (layout (html_fig h')).
Proof.
  intros Hh Hh' Hlot Heq. apply Hlot.
  rewrite (chart_title w lot s h Hh), (chart_title w' lot' s' h' Hh') in Heq.
  by apply (inj (String.append _)), (inj pretty) in Heq.
Qed.

(** X9 at lots 7 and 3 of the example table. *)
Lemma titles_of_lot7_and_lot3 :
  title_text (layout (figure_of 7 (series_rows (healthy lot7_table) 7)))
  ≠ title_text (layout (figure_of 3 (series_rows (healthy lot7_table) 3))).
Proof.
  apply (titles_tell_lots_apart (healthy lot7_table) (healthy lot7_table) 7 3
           initial initial
           (to_html (figure_of 7 (series_rows (healthy lot7_table) 7)) false "cdn")
           (to_html (figure_of 3 (series_rows (healthy lot7_table) 3)) false "cdn")).
  - reflexivity.
  - reflexivity.
  - lia.
Defined.

Global Instance order_by_log_date_trans : Transitive (order_by "log_date").
Proof.
  intros r1 r2 r3. rewrite !order_by_log_date. apply date_le_trans.
Qed.

Lemma fmap_NoDup_inj {A B} (f : A → B) (l : list A) (x y : A) :
  NoDup (f <$> l) → x ∈ l → y ∈ l → f x = f y → x = y.
Proof.
  induction l as [|a l IH]; csimpl; [by intros _ ?%elem_of_nil|].
  rewrite NoDup_cons, !elem_of_cons, list_elem_of_fmap.
  intros [Hnin Hnd] [->|Hx] [->|Hy] Hf; eauto.
  - destruct Hnin. eauto.
  - destruct Hnin. eauto.
Qed.

(** With one row per date, the sorted rows of a lot do not depend on the
    order the table holds them in. *)
Lemma series_rows_insertion_order (w w' : world) (lot : Z) :
  growth_logs w' ≡ₚ growth_logs w →
  NoDup (log_date <$> stored w lot) →
  series_rows w' lot = series_rows w lot.
Proof.
  intros Hp Hnd.
  assert (stored w' lot ≡ₚ stored w lot) as Hst by (unfold stored; by rewrite Hp).
  apply (StronglySorted_unique_strong (order_by "log_date")).
  - intros r1 r2 H1 H2 H12 H21.
    rewrite series_rows_stored in H1, H2. rewrite Hst in H1.
    apply (fmap_NoDup_inj log_date (stored w lot)); [done..|].
    apply (anti_symm date_le); by apply order_by_log_date.
  - apply Sorted_StronglySorted; [apply _|]. apply Sorted_merge_sort, _.
  - apply Sorted_StronglySorted; [apply _|]. apply Sorted_merge_sort, _.
  - by rewrite !series_rows_stored.
Qed.

(** X10. When a lot has at most one row per date, the whole response, the
    heights and their pairing with the dates included, is the same for every
    order in which the table holds its rows. *)
Theorem chart_ignores_insertion_order (w w' : world) (lot : Z) (s s' : state) :
  answers w → answers w' →
  growth_logs w' ≡ₚ growth_logs w →
  NoDup (log_date <$> stored w lot) →
  fst (get_growth_chart w' lot s') = fst (get_growth_chart w lot s).
Proof.
  intros Hw Hw' Hp Hnd. rewrite !get_growth_chart_answers by done.
  simpl. by rewrite (series_rows_insertion_order w w' lot).
Qed.

(** X10 at the example table and the same table stored in reverse. *)
Lemma chart_of_reversed_table :
  fst (get_growth_chart (healthy (reverse lot7_table)) 7 initial)
  = fst (get_growth_chart (healthy lot7_table) 7 initial).
Proof.
  apply (chart_ignores_insertion_order
           (healthy lot7_table) (healthy (reverse lot7_table)) 7 initial initial).
  - repeat split.
  - repeat split.
  - apply reverse_Permutation.
  - apply (bool_decide_unpack _). vm_compute. exact I.
Defined.

Lemma all_from_spec (f : Z → bool) (n : nat) (h k : Z) :
  all_from f n h = true → h ≤ k < h + Z.of_nat n → f k = true.
Proof.
  revert h. induction n as [|n IH]; intros h; [lia|].
  simpl all_from. rewrite andb_true_iff. intros [Hh Hrest] Hk.
  destruct (decide (k = h)) as [->|Hne]; [done|].
  apply (IH (h + 1)); [done|lia].
Qed.

Lemma recovers_up_to_100_m :
  all_from recovers (Z.to_nat 200001) (-100000) = true.
Proof. vm_compute. reflexivity. Qed.

Lemma reads_back_up_to_100_m :
  all_from reads_back (Z.to_nat 200001) (-100000) = true.
Proof. vm_compute. reflexivity. Qed.

Lemma height_recovered (h : Z) :
  -100000 ≤ h ≤ 100000 →
  PrimFloat.mul (PrimFloat.div (float_of_Z h) 10%float) 10%float = float_of_Z h.
Proof.
  intros Hh. apply FloatAxioms.Leibniz.eqb_spec.
  apply (all_from_spec recovers _ _ h recovers_up_to_100_m). lia.
Qed.

Lemma float_of_Z_inj (h1 h2 : Z) :
  -100000 ≤ h1 ≤ 100000 → -100000 ≤ h2 ≤ 100000 →
  float_of_Z h1 = float_of_Z h2 → h1 = h2.
Proof.
  intros H1 H2 Heq.
  pose proof (all_from_spec reads_back _ _ h1 reads_back_up_to_100_m) as R1.
  pose proof (all_from_spec reads_back _ _ h2 reads_back_up_to_100_m) as R2.
  unfold reads_back in R1, R2. rewrite Z.eqb_eq in R1, R2.
  rewrite <- R1, <- R2 by lia. by rewrite Heq.
Qed.

(** X11. For heights of up to 100 m either way, dividing the column by 10
    loses nothing: the division succeeds, and ten times each value in
    centimetres is the float64 of the stored millimetres again. *)
Theorem centimetres_recover_millimetres (hs : list Z) :
  Forall (λ h, -100000 ≤ h ≤ 100000) hs →
  ∃ cs, truediv (IntSeries hs) 10 = Return (FloatSeries cs)
        ∧ (λ c, PrimFloat.mul c 10%float) <$> cs = float_of_Z <$> hs.
Proof.
  intros Hhs. eexists. split; [reflexivity|].
  rewrite <- list_fmap_compose. apply list_fmap_ext.
  intros i h Hi. eapply Forall_lookup_1 in Hhs; [|done].
  by apply height_recovered.
Qed.

(** X11 at the heights 305, 0 and -12. *)
Lemma centimetres_recover_three :
  ∃ cs, truediv (IntSeries [305; 0; -12]) 10 = Return (FloatSeries cs)
        ∧ (λ c, PrimFloat.mul c 10%float) <$> cs = float_of_Z <$> [305; 0; -12].
Proof.
  apply (centimetres_recover_millimetres [305; 0; -12]).
  repeat constructor; lia.
Defined.

(** X12. For heights of up to 100 m either way, columns that differ are
    plotted differently: no two stored heights fall on one value in
    centimetres. *)
Theorem plotted_heights_stay_distinct (hs1 hs2 : list Z) :
  Forall (λ h, -100000 ≤ h ≤ 100000) hs1 →
  Forall (λ h, -100000 ≤ h ≤ 100000) hs2 →
  hs1 ≠ hs2 →
  truediv (IntSeries hs1) 10 ≠ truediv (IntSeries hs2) 10.
Proof.
  intros H1 H2 Hne Heq. apply Hne. clear Hne.
  simpl in Heq. injection Heq as Heq.
  revert hs2 H2 Heq. induction H1 as [|h1 hs1 Hh1 _ IH]; intros [|h2 hs2] H2 Heq;
    try discriminate; [done|].
  apply Forall_cons in H2 as [Hh2 H2]. csimpl in Heq. injection Heq as Hh Hrest.
  f_equal; [|by apply IH].
  apply float_of_Z_inj; [done..|].
  rewrite <- (height_recovered h1), <- (height_recovered h2) by done.
  change (float_of_Z 10) with 10%float in Hh. by rewrite Hh.
Qed.

(** X12 at 304 mm against 305 mm. *)
Lemma plotted_304_is_not_305 :
  truediv (IntSeries [304]) 10 ≠ truediv (IntSeries [305]) 10.
Proof.
  apply (plotted_heights_stay_distinct [304] [305]).
  - repeat constructor; lia.
  - repeat constructor; lia.
  - discriminate.
Defined.

(** X14. Whatever chart a run returns is serialised as a fragment, not a
    full page, with plotly loaded from the CDN; its x axis is a date axis
    and its trace is drawn in green. *)
Theorem chart_is_a_fragment (w : world) (lot : Z) (s : state) :
  match fst (get_growth_chart w lot s) with
  | Return (HtmlString h) =>
      full_html h = false
      ∧ include_plotlyjs h = "cdn"
      ∧ xaxis_type (xaxis (layout (html_fig h))) = Some "date"
      ∧ Forall (λ t, line_color t = Some "green") (data (html_fig h))
  | _ => True
  end.
Proof.
  rewrite get_growth_chart_run. unfold outcome_of, handled. simpl.
  destruct (create_engine_error w (db_url w)); [done|].
  destruct (connect_error w); [done|].
  destruct (execute_error w); [done|].
  destruct (series_rows w lot); simpl; [done|].
  repeat split. by repeat constructor.
Qed.

(** X16. A run never retries and never calls out of turn.  Its calls are
    [create_engine] alone when that fails; [create_engine] and [connect]
    when the connection fails; and all four of [create_engine], [connect],
    the statement and [close] otherwise, the statement failing or not.  In
    each case they are an initial piece of that one sequence. *)
Theorem calls_are_a_prefix (w : world) (lot : Z) :
  trace w lot
  = match create_engine_error w (db_url w), connect_error w with
    | Some _, _ => [CreateEngine (db_url w)]
    | None, Some _ => [CreateEngine (db_url w); Connect]
    | None, None =>
        [CreateEngine (db_url w); Connect;
         Execute query_sql {[ "lot_id" := lot ]}; Close]
    end
  ∧ trace w lot = calls_made w lot
  ∧ trace w lot
    `prefix_of` [CreateEngine (db_url w); Connect;
                 Execute query_sql {[ "lot_id" := lot ]}; Close].
Proof.
  unfold trace. rewrite get_growth_chart_state. simpl.
  unfold calls_made, calls.
  destruct (create_engine_error w (db_url w));
    [repeat split; by eexists [_; _; _]|].
  destruct (connect_error w); [repeat split; by eexists [_; _]|].
  repeat split. by exists [].
Qed.
